(** * PulseLab: the error-budget engine and its two callers

    A shallow embedding of [src/physics.ts] (the pure error-budget
    functions) and of the parts of [src/index.ts] that call them (the
    chat tool dispatcher [executeTool] and the worker's [fetch] handler).

    Numbers.  A JavaScript [number] is an IEEE-754 double.  The
    embedding in [Physics] takes it as an exact rational ([Q]) and
    keeps the arithmetic of the source operator for operator: it gives
    the value each formula has before rounding.  The theorems about
    the code are stated so that rounding cannot undo them: the shape
    of the formulas, the order of the tests, and inequalities that
    hold with room to spare or that monotone rounding keeps; the
    lemmas named [exact_...] are about the unrounded formulas and
    serve as steps only.  [Q] divides by
    zero to [0] where JavaScript yields an infinity or NaN, so the
    statements about values carry the hypothesis that gate time, T1,
    T2 and anharmonicity are nonzero.  Where a property turns on the
    last bit, the module [Double] gives the function in binary64
    arithmetic, and the property is decided there by evaluation.

    Text.  A template literal is a list of pieces: literal text and
    interpolated numbers, each tagged with the formatting method the
    source calls on it. *)

From Stdlib Require Import QArith Qabs Qminmax Qpower.
From Stdlib Require Import String Ascii List Bool.
From Stdlib Require Import Lqa Lia.
From Stdlib Require Import Floats.
Import ListNotations.

Open Scope Q_scope.

(* ------------------------------------------------------------------ *)
(** ** JavaScript built-ins used by the source                         *)
(* ------------------------------------------------------------------ *)

Module Js.

(** [Math.PI]: the double nearest to pi, 0x400921FB54442D18, which is
    the rational 884279719003555 / 2^48. *)
Definition Math_PI : Q := 884279719003555 # 281474976710656.

Definition Math_abs (x : Q) : Q := Qabs x.
Definition Math_max (x y : Q) : Q := Qmax x y.
Definition Math_min (x y : Q) : Q := Qmin x y.

(** The comparison operators [<], [>], [<=] on numbers. *)
Definition ltb (x y : Q) : bool :=
  match x ?= y with Lt => true | _ => false end.
Definition gtb (x y : Q) : bool := ltb y x.
Definition leb (x y : Q) : bool := negb (ltb y x).

(** One piece of a template literal. *)
Inductive piece : Type :=
| Str (s : string)                    (* literal text, or a string value *)
| Num (x : Q)                         (* [${x}], Number.prototype.toString *)
| Exponential (digits : nat) (x : Q)  (* [x.toExponential(digits)] *)
| Fixed (digits : nat) (x : Q).       (* [x.toFixed(digits)] *)

Definition text : Type := list piece.

Definition newline : string := String (ascii_of_nat 10) EmptyString.
Definition dquote : string := String (ascii_of_nat 34) EmptyString.

(** [lines.join(sep)] *)
Fixpoint join (sep : string) (lines : list text) : text :=
  match lines with
  | [] => []
  | [l] => l
  | l :: rest => l ++ Str sep :: join sep rest
  end.

(** The number formatters of the runtime, and the string a text
    denotes once they are fixed. *)
Record number_format : Type := {
  toString : Q -> string;
  toExponential : nat -> Q -> string;
  toFixed : nat -> Q -> string
}.

Definition render_piece (F : number_format) (p : piece) : string :=
  match p with
  | Str s => s
  | Num x => toString F x
  | Exponential d x => toExponential F d x
  | Fixed d x => toFixed F d x
  end.

Fixpoint render (F : number_format) (t : text) : string :=
  match t with
  | [] => EmptyString
  | p :: rest => (render_piece F p ++ render F rest)%string
  end.

End Js.

(* ------------------------------------------------------------------ *)
(** ** src/physics.ts                                                  *)
(* ------------------------------------------------------------------ *)

Module Physics.
Import Js.

Record HardwareParams : Type := {
  alpha_mhz : Q;      (* anharmonicity in MHz (negative, e.g. -200) *)
  t1_us : Q;          (* T1 in microseconds *)
  t2_us : Q;          (* T2 in microseconds *)
  gate_time_ns : Q    (* gate duration in nanoseconds *)
}.

Record DecoherenceFloor : Type := {
  t1_contribution : Q;
  t2_contribution : Q;
  total : Q
}.

Record EstimatedInfidelity : Type := {
  gaussian : Q;
  drag : Q;
  grape : Q
}.

(** The string-literal union of [ErrorBudget["regime"]]. *)
Inductive Regime : Type :=
| drag_sufficient
| grape_needed
| short_gate_regime.

Definition regime_string (r : Regime) : string :=
  match r with
  | drag_sufficient => "drag_sufficient"
  | grape_needed => "grape_needed"
  | short_gate_regime => "short_gate_regime"
  end.

Record ErrorBudget : Type := {
  params : HardwareParams;
  decoherence_floor : DecoherenceFloor;
  estimated_infidelity : EstimatedInfidelity;
  regime : Regime;
  recommendation : text;
  t2_over_t_ratio : Q;
  drag_beta : Q
}.

Record RobustnessEstimate : Type := {
  method : string;
  detuning_min_fidelity : Q;
  amplitude_min_fidelity : Q;
  detuning_robust : bool;
  amplitude_robust : bool
}.

Definition computeDecoherenceFloor (gate_time_ns t1_us t2_us : Q)
  : DecoherenceFloor :=
  let t_ns := gate_time_ns in
  let t1_ns := t1_us * 1000 in
  let t2_ns := t2_us * 1000 in
  let eps_t1 := t_ns / (2 * t1_ns) in
  let eps_t2 := t_ns / t2_ns - t_ns / (2 * t1_ns) in
  let eps_phi := Math_max 0 eps_t2 in
  {| t1_contribution := eps_t1;
     t2_contribution := eps_phi;
     total := eps_t1 + eps_phi |}.

Definition estimateDragCoherentError (gate_time_ns alpha_mhz : Q) : Q :=
  let abs_alpha := Math_abs alpha_mhz in
  let ref_error := 4.9e-4 in
  let ref_gate := 20 in
  let ref_alpha := 200 in
  let ratio := (ref_gate / gate_time_ns) ^ 4 * (ref_alpha / abs_alpha) ^ 2 in
  ref_error * ratio.

Definition estimateGaussianCoherentError (gate_time_ns alpha_mhz : Q) : Q :=
  let abs_alpha := Math_abs alpha_mhz in
  let ref_error := 2.8e-2 in
  let ref_gate := 20 in
  let ref_alpha := 200 in
  let ratio := (ref_gate / gate_time_ns) ^ 2 * (ref_alpha / abs_alpha) ^ 2 in
  ref_error * ratio.

Definition computeDragBeta (alpha_mhz : Q) : Q :=
  let alpha_rad_per_ns := alpha_mhz * 2 * Math_PI / 1000 in
  -1 / (2 * alpha_rad_per_ns).

(** The three recommendation templates of [computeErrorBudget]. *)
Definition recommendation_short_gate (gate_time_ns : Q) : text :=
  [ Str "At "; Num gate_time_ns;
    Str "ns gate time, DRAG's perturbative correction breaks down. ";
    Str "GRAPE (or another numerical method) is needed for high fidelity. ";
    Str "The first-order DRAG correction cannot suppress higher-order leakage ";
    Str "pathways that become significant when Omega/|alpha| is large." ].

Definition recommendation_drag_sufficient
    (drag_coherent : Q) (floor : DecoherenceFloor)
    (drag_total grape_total t2_us : Q) : text :=
  [ Str "Properly calibrated DRAG is sufficient here. DRAG coherent error ";
    Str "("; Exponential 2 drag_coherent;
    Str ") is well below the decoherence floor ";
    Str "("; Exponential 2 (total floor);
    Str "). GRAPE would eliminate the residual ";
    Str "coherent error, but the improvement is marginal: ";
    Fixed 2 (drag_total / grape_total);
    Str "x above GRAPE's decoherence-limited performance. ";
    Str "Your highest-leverage improvement is increasing T2 ";
    Str "(currently "; Num t2_us; Str " us, contributing ";
    Exponential 2 (t2_contribution floor); Str " to infidelity)." ].

Definition recommendation_grape_needed
    (drag_coherent : Q) (floor : DecoherenceFloor) : text :=
  [ Str "DRAG coherent error ("; Exponential 2 drag_coherent;
    Str ") is comparable to or exceeds ";
    Str "the decoherence floor ("; Exponential 2 (total floor);
    Str "). GRAPE can provide meaningful ";
    Str "improvement by eliminating coherent error entirely. ";
    Str "Consider numerical optimization for this parameter regime." ].

Definition computeErrorBudget (params : HardwareParams) : ErrorBudget :=
  let alpha_mhz := alpha_mhz params in
  let t1_us := t1_us params in
  let t2_us := t2_us params in
  let gate_time_ns := gate_time_ns params in
  let floor := computeDecoherenceFloor gate_time_ns t1_us t2_us in
  let drag_coherent := estimateDragCoherentError gate_time_ns alpha_mhz in
  let gaussian_coherent := estimateGaussianCoherentError gate_time_ns alpha_mhz in
  let grape_total := total floor in
  let drag_total := drag_coherent + total floor in
  let gaussian_total := gaussian_coherent + total floor in
  let t2_over_t := (t2_us * 1000) / gate_time_ns in
  let beta := computeDragBeta alpha_mhz in
  let '(regime, recommendation) :=
    if ltb gate_time_ns 15 then
      (short_gate_regime, recommendation_short_gate gate_time_ns)
    else if ltb drag_coherent (total floor * 0.5) then
      (drag_sufficient,
       recommendation_drag_sufficient
         drag_coherent floor drag_total grape_total t2_us)
    else
      (grape_needed, recommendation_grape_needed drag_coherent floor) in
  {| params := params;
     decoherence_floor := floor;
     estimated_infidelity :=
       {| gaussian := gaussian_total;
          drag := drag_total;
          grape := grape_total |};
     regime := regime;
     recommendation := recommendation;
     t2_over_t_ratio := t2_over_t;
     drag_beta := beta |}.

Definition estimateRobustness (params : HardwareParams)
  : list RobustnessEstimate :=
  let t := gate_time_ns params in
  let gate_factor := Math_min 1 (20 / t) in
  [ {| method := "Gaussian";
       detuning_min_fidelity := 0.937 * (1 - 0.03 * gate_factor);
       amplitude_min_fidelity := 0.965 * (1 - 0.02 * gate_factor);
       detuning_robust := false;
       amplitude_robust := false |};
    {| method := "DRAG";
       detuning_min_fidelity := 0.990 * (1 - 0.01 * gate_factor);
       amplitude_min_fidelity := 0.990 * (1 - 0.01 * gate_factor);
       detuning_robust := true;
       amplitude_robust := true |};
    {| method := "GRAPE";
       detuning_min_fidelity := 0.931 * (1 - 0.04 * gate_factor);
       amplitude_min_fidelity := 0.994 * (1 - 0.005 * gate_factor);
       detuning_robust := false;
       amplitude_robust := true |} ].

Definition formatErrorBudget (budget : ErrorBudget) : text :=
  let p := params budget in
  let lines : list text :=
    [ [ Str "=== Error Budget Analysis ===" ];
      [ Str "Hardware: alpha/2pi = "; Num (alpha_mhz p);
        Str " MHz, T1 = "; Num (t1_us p);
        Str " us, T2 = "; Num (t2_us p); Str " us" ];
      [ Str "Gate time: "; Num (gate_time_ns p); Str " ns" ];
      [ Str "DRAG beta: "; Fixed 4 (drag_beta budget); Str " ns" ];
      [ Str "T2/T ratio: "; Fixed 0 (t2_over_t_ratio budget) ];
      [ Str "" ];
      [ Str "Decoherence floor:" ];
      [ Str "  T1 contribution:  ";
        Exponential 2 (t1_contribution (decoherence_floor budget)) ];
      [ Str "  T2 contribution:  ";
        Exponential 2 (t2_contribution (decoherence_floor budget)) ];
      [ Str "  Total floor:      ";
        Exponential 2 (total (decoherence_floor budget)) ];
      [ Str "" ];
      [ Str "Estimated total infidelity (1 - F):" ];
      [ Str "  Gaussian: ";
        Exponential 2 (gaussian (estimated_infidelity budget)) ];
      [ Str "  DRAG:     ";
        Exponential 2 (drag (estimated_infidelity budget)) ];
      [ Str "  GRAPE:    ";
        Exponential 2 (grape (estimated_infidelity budget)) ];
      [ Str "" ];
      [ Str "Regime: "; Str (regime_string (regime budget)) ];
      [ Str "" ];
      [ Str "Recommendation: " ] ++ recommendation budget ] in
  join newline lines.

End Physics.

(* ------------------------------------------------------------------ *)
(** ** src/physics.ts in binary64 arithmetic                           *)
(* ------------------------------------------------------------------ *)

Module Double.

(** [Math.max(x, y)]: NaN if either argument is NaN, and +0 is taken
    to be larger than -0. *)
Definition Math_max (x y : float) : float :=
  if (PrimFloat.is_nan x || PrimFloat.is_nan y)%bool then PrimFloat.nan
  else if PrimFloat.ltb x y then y
  else if PrimFloat.ltb y x then x
  else if PrimFloat.get_sign x then y else x.

Record DecoherenceFloor : Type := {
  t1_contribution : float;
  t2_contribution : float;
  total : float
}.

Definition computeDecoherenceFloor (gate_time_ns t1_us t2_us : float)
  : DecoherenceFloor :=
  let t_ns := gate_time_ns in
  let t1_ns := (t1_us * 1000)%float in
  let t2_ns := (t2_us * 1000)%float in
  let eps_t1 := (t_ns / (2 * t1_ns))%float in
  let eps_t2 := (t_ns / t2_ns - t_ns / (2 * t1_ns))%float in
  let eps_phi := Math_max 0%float eps_t2 in
  {| t1_contribution := eps_t1;
     t2_contribution := eps_phi;
     total := (eps_t1 + eps_phi)%float |}.

Definition floor_total (gate_time_ns t1_us t2_us : float) : float :=
  total (computeDecoherenceFloor gate_time_ns t1_us t2_us).

End Double.

(* ------------------------------------------------------------------ *)
(** ** src/index.ts: tool execution and the worker entry point         *)
(* ------------------------------------------------------------------ *)

Module Index.
Import Js.

Record ChatMessage : Type := {
  role : string;
  content : string
}.

Record SavedConfig : Type := {
  name : string;
  params : Physics.HardwareParams;
  created_at : string
}.

Record AgentState : Type := {
  messages : list ChatMessage;
  configs : list SavedConfig
}.

(** The fields [executeTool] reads from its [args] object, for a call
    whose arguments are numbers (and a string for the name).  The
    source casts without checking; arguments that are missing or not
    numbers are outside this model. *)
Record ToolArgs : Type := {
  args_name : string;
  args_alpha_mhz : Q;
  args_t1_us : Q;
  args_t2_us : Q;
  args_gate_time_ns : Q
}.

Definition params_of_args (args : ToolArgs) : Physics.HardwareParams :=
  {| Physics.alpha_mhz := args_alpha_mhz args;
     Physics.t1_us := args_t1_us args;
     Physics.t2_us := args_t2_us args;
     Physics.gate_time_ns := args_gate_time_ns args |}.

(** The three messages of the input validation. *)
Definition warning_t2 (p : Physics.HardwareParams) : text :=
  [ Str "Warning: T2 ("; Num (Physics.t2_us p);
    Str " us) exceeds 2*T1 ("; Num (2 * Physics.t1_us p);
    Str " us). This is physically impossible; T2 <= 2*T1 always. Please check your values." ].

Definition warning_alpha (p : Physics.HardwareParams) : text :=
  [ Str "Warning: Positive anharmonicity ("; Num (Physics.alpha_mhz p);
    Str " MHz) is unusual for transmons. Transmons typically have alpha < 0 (e.g., -200 MHz). Did you mean ";
    Num (- Math_abs (Physics.alpha_mhz p)); Str " MHz?" ].

Definition error_positive : text :=
  [ Str "Error: All time parameters must be positive." ].

Definition robustness_lines (r : Physics.RobustnessEstimate) : list text :=
  [ [ Str (Physics.method r); Str ":" ];
    [ Str "  Detuning min fidelity:  ";
      Fixed 4 (Physics.detuning_min_fidelity r); Str " ";
      Str (if Physics.detuning_robust r then "(robust)" else "(sensitive)") ];
    [ Str "  Amplitude min fidelity: ";
      Fixed 4 (Physics.amplitude_min_fidelity r); Str " ";
      Str (if Physics.amplitude_robust r then "(robust)" else "(sensitive)") ];
    [ Str "" ] ].

Definition config_summary (c : SavedConfig) : text :=
  [ Str dquote; Str (name c); Str dquote;
    Str ": alpha="; Num (Physics.alpha_mhz (params c));
    Str " MHz, T1="; Num (Physics.t1_us (params c));
    Str " us, T2="; Num (Physics.t2_us (params c));
    Str " us, T_gate="; Num (Physics.gate_time_ns (params c)); Str " ns" ].

(** [executeTool(toolName, args, state)].  [now] stands for
    [new Date().toISOString()]; the state is returned because
    [save_config] pushes onto [state.configs]. *)
Definition executeTool (now : string)
    (toolName : string) (args : ToolArgs) (state : AgentState)
  : text * AgentState :=
  if String.eqb toolName "compute_error_budget" then
    let params := params_of_args args in
    if gtb (Physics.t2_us params) (2 * Physics.t1_us params) then
      (warning_t2 params, state)
    else if gtb (Physics.alpha_mhz params) 0 then
      (warning_alpha params, state)
    else if leb (Physics.gate_time_ns params) 0
            || leb (Physics.t1_us params) 0
            || leb (Physics.t2_us params) 0 then
      (error_positive, state)
    else
      let budget := Physics.computeErrorBudget params in
      (Physics.formatErrorBudget budget, state)
  else if String.eqb toolName "estimate_robustness" then
    let params := params_of_args args in
    let robustness := Physics.estimateRobustness params in
    let lines : list text :=
      [ [ Str "=== Robustness Estimates (±5 MHz detuning, ±5% amplitude) ===" ];
        [ Str "Gate time: "; Num (Physics.gate_time_ns params); Str " ns" ];
        [ Str "" ] ]
      ++ flat_map robustness_lines robustness
      ++ [ [ Str "Note: DRAG's superior detuning robustness is a key finding. GRAPE's" ];
           [ Str "richer spectral content makes it more sensitive to frequency shifts." ] ] in
    (join newline lines, state)
  else if String.eqb toolName "save_config" then
    let config :=
      {| name := args_name args;
         params := params_of_args args;
         created_at := now |} in
    ([ Str "Saved configuration " ] ++ config_summary config,
     {| messages := messages state;
        configs := configs state ++ [config] |})
  else if String.eqb toolName "list_configs" then
    match configs state with
    | [] =>
        ([ Str "No saved configurations yet. Use save_config to store hardware parameters." ],
         state)
    | cs =>
        (join newline
           ([ Str "Saved configurations:" ]
            :: map (fun c => Str "  - " :: config_summary c) cs),
         state)
    end
  else
    ([ Str "Unknown tool: "; Str toolName ], state).

(** What the [try] block of the REST handler meets: a body that is a
    record of four numbers, or an exception with its message
    ([request.json()] rejects, or the body is [null] and
    [computeErrorBudget] throws on reading its fields).  Other JSON
    values are outside this model. *)
Inductive JsonBody : Type :=
| BodyThrows (message : string)
| BodyParams (p : Physics.HardwareParams).

Record Request : Type := {
  pathname : string;
  method : string;
  body : JsonBody
}.

Inductive Payload : Type :=
| JsonBudget (budget : Physics.ErrorBudget)   (* JSON.stringify(budget, null, 2) *)
| JsonError (error : string)                  (* JSON.stringify({ error }) *)
| PlainText (s : string)
| AgentPayload (s : string).

Record Response : Type := {
  status : nat;
  headers : list (string * string);
  payload : Payload
}.

(** The worker's [fetch].  [routeAgentRequest] belongs to the agents
    SDK and is taken as an argument. *)
Definition fetch (routeAgentRequest : Request -> option Response)
    (request : Request) : Response :=
  if String.eqb (pathname request) "/api/error-budget"
     && String.eqb (method request) "POST" then
    match body request with
    | BodyParams body =>
        let budget := Physics.computeErrorBudget body in
        {| status := 200;
           headers := [("Content-Type", "application/json")%string];
           payload := JsonBudget budget |}
    | BodyThrows message =>
        {| status := 400;
           headers := [("Content-Type", "application/json")%string];
           payload := JsonError message |}
    end
  else
    match routeAgentRequest request with
    | Some agentResponse => agentResponse
    | None =>
        {| status := 404; headers := []; payload := PlainText "Not found" |}
    end.

End Index.

(* ------------------------------------------------------------------ *)
(** ** Vocabulary of the specification                                 *)
(* ------------------------------------------------------------------ *)

Module Spec.
Import Js.


(** [x] is [v] up to the absolute tolerance [tol]. *)
Definition approx (x v tol : Q) : Prop := Qabs (x - v) <= tol.

(** The validation precondition of the engine. *)
Definition positive_times (p : Physics.HardwareParams) : Prop :=
  0 < Physics.gate_time_ns p /\ 0 < Physics.t1_us p /\ 0 < Physics.t2_us p.

(** The three time fields, and what it means for one to fail the
    positivity check. *)
Inductive TimeField : Type := GateTime | T1 | T2.

Definition time_field (f : TimeField) (p : Physics.HardwareParams) : Q :=
  match f with
  | GateTime => Physics.gate_time_ns p
  | T1 => Physics.t1_us p
  | T2 => Physics.t2_us p
  end.

Definition field_fails (p : Physics.HardwareParams) (f : TimeField) : Prop :=
  time_field f p <= 0.

Definition non_positive (p : Physics.HardwareParams) : Prop :=
  exists f, field_fails p f.

(** The decoherence floor as a function of its three inputs. *)
Definition floor_total (gate_time_ns t1_us t2_us : Q) : Q :=
  Physics.total (Physics.computeDecoherenceFloor gate_time_ns t1_us t2_us).

(** The reference table of the robustness section, as the
    specification words it: method, detuning reference and
    coefficient, amplitude reference and coefficient, and the two
    fixed flags. *)
Record RobustnessRow : Type := {
  row_method : string;
  detuning_ref : Q;
  detuning_coef : Q;
  amplitude_ref : Q;
  amplitude_coef : Q;
  row_detuning_robust : bool;
  row_amplitude_robust : bool
}.

Definition robustness_table : list RobustnessRow :=
  [ {| row_method := "Gaussian";
       detuning_ref := 0.937; detuning_coef := 0.03;
       amplitude_ref := 0.965; amplitude_coef := 0.02;
       row_detuning_robust := false; row_amplitude_robust := false |};
    {| row_method := "DRAG";
       detuning_ref := 0.990; detuning_coef := 0.01;
       amplitude_ref := 0.990; amplitude_coef := 0.01;
       row_detuning_robust := true; row_amplitude_robust := true |};
    {| row_method := "GRAPE";
       detuning_ref := 0.931; detuning_coef := 0.04;
       amplitude_ref := 0.994; amplitude_coef := 0.005;
       row_detuning_robust := false; row_amplitude_robust := true |} ].

Definition gate_factor (gate_time_ns : Q) : Q := Qmin 1 (20 / gate_time_ns).

(** An estimate realises a row of the table at a given gate factor. *)
Definition realises (gf : Q) (row : RobustnessRow)
    (r : Physics.RobustnessEstimate) : Prop :=
  Physics.method r = row_method row
  /\ Physics.detuning_min_fidelity r
     == detuning_ref row * (1 - detuning_coef row * gf)
  /\ Physics.amplitude_min_fidelity r
     == amplitude_ref row * (1 - amplitude_coef row * gf)
  /\ Physics.detuning_robust r = row_detuning_robust row
  /\ Physics.amplitude_robust r = row_amplitude_robust row.

(** The inputs used as running examples: the scenario of the
    specification (IQM Garnet at 20 ns) and variations of it. *)
Definition garnet : Physics.HardwareParams :=
  {| Physics.alpha_mhz := -200; Physics.t1_us := 37;
     Physics.t2_us := 9.6; Physics.gate_time_ns := 20 |}.

Definition with_gate_time (g : Q) (p : Physics.HardwareParams)
  : Physics.HardwareParams :=
  {| Physics.alpha_mhz := Physics.alpha_mhz p;
     Physics.t1_us := Physics.t1_us p;
     Physics.t2_us := Physics.t2_us p;
     Physics.gate_time_ns := g |}.

Definition with_t2 (t2 : Q) (p : Physics.HardwareParams)
  : Physics.HardwareParams :=
  {| Physics.alpha_mhz := Physics.alpha_mhz p;
     Physics.t1_us := Physics.t1_us p;
     Physics.t2_us := t2;
     Physics.gate_time_ns := Physics.gate_time_ns p |}.

Definition with_alpha (a : Q) (p : Physics.HardwareParams)
  : Physics.HardwareParams :=
  {| Physics.alpha_mhz := a;
     Physics.t1_us := Physics.t1_us p;
     Physics.t2_us := Physics.t2_us p;
     Physics.gate_time_ns := Physics.gate_time_ns p |}.

Definition args_of (p : Physics.HardwareParams) : Index.ToolArgs :=
  {| Index.args_name := "";
     Index.args_alpha_mhz := Physics.alpha_mhz p;
     Index.args_t1_us := Physics.t1_us p;
     Index.args_t2_us := Physics.t2_us p;
     Index.args_gate_time_ns := Physics.gate_time_ns p |}.

Definition empty_state : Index.AgentState :=
  {| Index.messages := []; Index.configs := [] |}.

(** The reply of the chat tool [compute_error_budget] on [p]. *)
Definition tool_reply (p : Physics.HardwareParams) : text :=
  fst (Index.executeTool "" "compute_error_budget" (args_of p) empty_state).

(** The first line of every formatted budget. *)
Definition banner : string := "=== Error Budget Analysis ===".

Definition api_request (p : Physics.HardwareParams) : Index.Request :=
  {| Index.pathname := "/api/error-budget";
     Index.method := "POST";
     Index.body := Index.BodyParams p |}.

End Spec.

(* ------------------------------------------------------------------ *)
(** ** src/prompt.ts: the tool table offered to the model              *)
(* ------------------------------------------------------------------ *)

Module Prompt.

Record ToolProperty : Type := {
  property_name : string;
  property_type : string;
  property_description : string
}.

Record ToolDescription : Type := {
  name : string;
  description : string;
  properties : list ToolProperty;
  required : list string
}.

(** [TOOL_DESCRIPTIONS], an object literal: its keys in source order,
    each with its value. *)
Definition TOOL_DESCRIPTIONS : list (string * ToolDescription) :=
  [ ("compute_error_budget",
     {| name := "compute_error_budget";
        description :=
          "Compute the full error budget for a transmon single-qubit gate, including decoherence floor (T1/T2 contributions), estimated infidelity for Gaussian/DRAG/GRAPE methods, regime classification, and calibration recommendation. Based on the analytical framework from arXiv:2511.12799.";
        properties :=
          [ {| property_name := "alpha_mhz"; property_type := "number";
               property_description :=
                 "Anharmonicity in MHz (typically negative, e.g., -200). This is alpha/2pi." |};
            {| property_name := "t1_us"; property_type := "number";
               property_description :=
                 "T1 relaxation time in microseconds (e.g., 37)." |};
            {| property_name := "t2_us"; property_type := "number";
               property_description :=
                 "T2 dephasing time in microseconds (e.g., 9.6). Must satisfy T2 <= 2*T1." |};
            {| property_name := "gate_time_ns"; property_type := "number";
               property_description :=
                 "Gate duration in nanoseconds (e.g., 20)." |} ];
        required := ["alpha_mhz"; "t1_us"; "t2_us"; "gate_time_ns"] |});
    ("estimate_robustness",
     {| name := "estimate_robustness";
        description :=
          "Estimate the robustness of Gaussian, DRAG, and GRAPE pulses to detuning (+/-5 MHz) and amplitude error (+/-5%) for given hardware parameters. Returns minimum fidelity under each perturbation type. Based on robustness analysis from arXiv:2511.12799.";
        properties :=
          [ {| property_name := "alpha_mhz"; property_type := "number";
               property_description :=
                 "Anharmonicity in MHz (negative, e.g., -200)." |};
            {| property_name := "t1_us"; property_type := "number";
               property_description := "T1 in microseconds." |};
            {| property_name := "t2_us"; property_type := "number";
               property_description := "T2 in microseconds." |};
            {| property_name := "gate_time_ns"; property_type := "number";
               property_description := "Gate duration in nanoseconds." |} ];
        required := ["alpha_mhz"; "t1_us"; "t2_us"; "gate_time_ns"] |});
    ("save_config",
     {| name := "save_config";
        description :=
          "Save a hardware configuration for later reference. The user can recall it by name.";
        properties :=
          [ {| property_name := "name"; property_type := "string";
               property_description :=
                 "A short label for this config (e.g., 'IQM Garnet', 'our device Q3')." |};
            {| property_name := "alpha_mhz"; property_type := "number";
               property_description := "Anharmonicity in MHz." |};
            {| property_name := "t1_us"; property_type := "number";
               property_description := "T1 in microseconds." |};
            {| property_name := "t2_us"; property_type := "number";
               property_description := "T2 in microseconds." |};
            {| property_name := "gate_time_ns"; property_type := "number";
               property_description := "Gate duration in nanoseconds." |} ];
        required := ["name"; "alpha_mhz"; "t1_us"; "t2_us"; "gate_time_ns"] |});
    ("list_configs",
     {| name := "list_configs";
        description :=
          "List all saved hardware configurations for this session.";
        properties := [];
        required := [] |}) ]%string.

End Prompt.

(* ------------------------------------------------------------------ *)
(** ** Further vocabulary: sequences of tool calls, replies            *)
(* ------------------------------------------------------------------ *)

Module Calls.
Import Js.

(** The names under which tools are offered. *)
Definition offered_tools : list string :=
  map (fun kv => Prompt.name (snd kv)) Prompt.TOOL_DESCRIPTIONS.

(** The reply of the [default] case of [executeTool]. *)
Definition unknown_tool (toolName : string) : text :=
  [ Str "Unknown tool: "; Str toolName ].

(** The record [save_config] builds from its arguments. *)
Definition config_of_args (now : string) (args : Index.ToolArgs)
  : Index.SavedConfig :=
  {| Index.name := Index.args_name args;
     Index.params := Index.params_of_args args;
     Index.created_at := now |}.

(** One [save_config] call; a run of them, each with its own clock
    reading, threading the state as the agent does. *)
Definition save (call : string * Index.ToolArgs) (state : Index.AgentState)
  : Index.AgentState :=
  snd (Index.executeTool (fst call) "save_config" (snd call) state).

Definition save_all (calls : list (string * Index.ToolArgs))
    (state : Index.AgentState) : Index.AgentState :=
  fold_left (fun st call => save call st) calls state.

(** The reply of [list_configs]; its arguments and the clock are not
    read. *)
Definition list_reply (state : Index.AgentState) : text :=
  fst (Index.executeTool "" "list_configs" (Spec.args_of Spec.garnet) state).

(** The line [list_configs] prints for one configuration. *)
Definition config_line (c : Index.SavedConfig) : text :=
  Str "  - " :: Index.config_summary c.

(** The two shapes of a [list_configs] reply. *)
Definition no_configs_reply : text :=
  [ Str "No saved configurations yet. Use save_config to store hardware parameters." ].

Definition listing (cs : list Index.SavedConfig) : text :=
  join newline ([ Str "Saved configurations:" ] :: map config_line cs).

(** The reply of the chat tool [estimate_robustness]. *)
Definition robustness_reply (args : Index.ToolArgs) (state : Index.AgentState)
  : text :=
  fst (Index.executeTool "" "estimate_robustness" args state).

(** The inputs the [compute_error_budget] tool lets through. *)
Definition passes_validation (p : Physics.HardwareParams) : Prop :=
  Physics.t2_us p <= 2 * Physics.t1_us p
  /\ Physics.alpha_mhz p <= 0
  /\ 0 < Physics.gate_time_ns p
  /\ 0 < Physics.t1_us p
  /\ 0 < Physics.t2_us p.

(** The path and method of the REST endpoint. *)
Definition is_api_call (request : Index.Request) : bool :=
  String.eqb (Index.pathname request) "/api/error-budget"
  && String.eqb (Index.method request) "POST".

(** The fidelities of one estimate lie strictly between 0 and 1. *)
Definition fidelities_in_unit_interval (r : Physics.RobustnessEstimate)
  : Prop :=
  0 < Physics.detuning_min_fidelity r < 1
  /\ 0 < Physics.amplitude_min_fidelity r < 1.

(** Estimate [r'] is at least as robust as [r] in both channels. *)
Definition no_less_robust (r r' : Physics.RobustnessEstimate) : Prop :=
  Physics.detuning_min_fidelity r <= Physics.detuning_min_fidelity r'
  /\ Physics.amplitude_min_fidelity r <= Physics.amplitude_min_fidelity r'.

(** Neither fidelity of the estimate is below the reference of the
    row. *)
Definition at_least_reference (row : Spec.RobustnessRow)
    (r : Physics.RobustnessEstimate) : Prop :=
  Spec.detuning_ref row <= Physics.detuning_min_fidelity r
  /\ Spec.amplitude_ref row <= Physics.amplitude_min_fidelity r.

(** The reply of the worker when no route matches. *)
Definition not_found : Index.Response :=
  {| Index.status := 404; Index.headers := [];
     Index.payload := Index.PlainText "Not found" |}.

End Calls.

(* ------------------------------------------------------------------ *)
(** ** Arithmetic and comparison lemmas                                *)
(* ------------------------------------------------------------------ *)

Section Comparisons.
Import Js.

Lemma ltb_true_iff (x y : Q) : ltb x y = true <-> x < y.
Proof.
  unfold ltb. rewrite Qlt_alt.
  destruct (x ?= y); split; intro H; try reflexivity; discriminate H.
Qed.

Lemma ltb_false_iff (x y : Q) : ltb x y = false <-> ~ x < y.
Proof.
  rewrite <- ltb_true_iff. destruct (ltb x y); split; intro H.
  - discriminate H.
  - exfalso. apply H. reflexivity.
  - intro E. discriminate E.
  - reflexivity.
Qed.

Lemma gtb_true_iff (x y : Q) : gtb x y = true <-> y < x.
Proof. apply ltb_true_iff. Qed.

Lemma leb_true_iff (x y : Q) : leb x y = true <-> x <= y.
Proof.
  unfold leb. rewrite negb_true_iff, ltb_false_iff.
  split; intro H; [apply Qnot_lt_le | apply Qle_not_lt]; exact H.
Qed.

Lemma leb_false_iff (x y : Q) : leb x y = false <-> y < x.
Proof. unfold leb. rewrite negb_false_iff. apply ltb_true_iff. Qed.

End Comparisons.

Section Arithmetic.


Lemma Qdiv_le_denominator (a c d : Q) :
  0 <= a -> 0 < c -> c <= d -> a / d <= a / c.
Proof.
  intros Ha Hc Hcd.
  assert (Hd : 0 < d) by (eapply Qlt_le_trans; eassumption).
  apply Qle_shift_div_r; [exact Hd |].
  assert (E : a / c * d == (a * d) / c) by (field; lra).
  rewrite E. apply Qle_shift_div_l; [exact Hc |].
  rewrite (Qmult_comm a c), (Qmult_comm a d).
  apply Qmult_le_compat_r; assumption.
Qed.


Lemma Qpower_even_nonneg (x : Q) (n : positive) : 0 <= x ^ Zpos (xO n).
Proof.
  replace (Zpos (xO n)) with (Zpos n * 2)%Z by lia.
  rewrite Qpower_mult. apply Qsqr_nonneg.
Qed.

End Arithmetic.

(* ------------------------------------------------------------------ *)
(** ** The decoherence floor                                           *)
(* ------------------------------------------------------------------ *)

Section DecoherenceFloor.
Import Js Physics Spec.

Lemma t2_contribution_nonneg (gate t1 t2 : Q) :
  0 <= t2_contribution (computeDecoherenceFloor gate t1 t2).
Proof. simpl. apply Q.le_max_l. Qed.


Lemma t1_contribution_nonneg (gate t1 t2 : Q) :
  0 < gate -> 0 < t1 ->
  0 <= t1_contribution (computeDecoherenceFloor gate t1 t2).
Proof.
  intros Hg H1. simpl. apply Qle_shift_div_l; lra.
Qed.

(** C2: for positive gate time, T1 and T2, [computeDecoherenceFloor]
    first converts T1 and T2 from microseconds to nanoseconds (times
    1000) and returns t1_contribution = gate/(2*t1_ns), t2_contribution
    = max(0, gate/t2_ns - gate/(2*t1_ns)), and their sum as total; the
    dephasing term is never negative and is exactly zero when
    t2_us = 2 * t1_us. *)
Theorem decoherence_floor_formula (gate t1 t2 : Q) :
  0 < gate -> 0 < t1 -> 0 < t2 ->
  let f := computeDecoherenceFloor gate t1 t2 in
  let t1_ns := t1 * 1000 in
  let t2_ns := t2 * 1000 in
  t1_contribution f == gate / (2 * t1_ns)
  /\ t2_contribution f == Qmax 0 (gate / t2_ns - gate / (2 * t1_ns))
  /\ total f == t1_contribution f + t2_contribution f
  /\ 0 <= t2_contribution f
  /\ (t2 == 2 * t1 -> t2_contribution f == 0).
Proof.
  intros Hg H1 H2 f t1_ns t2_ns. subst f t1_ns t2_ns.
  split; [reflexivity |]. split; [reflexivity |]. split; [reflexivity |].
  split; [apply t2_contribution_nonneg |].
  intro E. simpl. unfold Math_max. rewrite E.
  rewrite Q.max_l; [reflexivity |].
  assert (D : 2 * t1 * 1000 == 2 * (t1 * 1000)) by ring.
  rewrite D. lra.
Qed.

Lemma decoherence_floor_formula_witness :
  t1_contribution (computeDecoherenceFloor 20 37 74) == 20 / (2 * (37 * 1000))
  /\ t2_contribution (computeDecoherenceFloor 20 37 74) == 0.
Proof.
  destruct (decoherence_floor_formula 20 37 74) as (A & _ & _ & _ & B);
    try reflexivity.
  split; [exact A | apply B; reflexivity].
Defined.




(** At those inputs the doubles stay within the tolerance, and within
    2^-40, which is below it. *)
Example double_floor_within_tolerance :
  PrimFloat.leb (Double.floor_total 20 58 30)
                ((1 + 0x1p-40) * Double.floor_total 20 15 30) = true
  /\ PrimFloat.leb (Double.floor_total 0x1.b156bdb4e20adp+5 134 76)
                   ((1 + 0x1p-40)
                    * Double.floor_total 0x1.b156bdb4e20aep+5 134 76)
     = true.
Proof. vm_compute. repeat split. Qed.



End DecoherenceFloor.

(* ------------------------------------------------------------------ *)
(** ** Coherent-error scaling laws and the DRAG parameter              *)
(* ------------------------------------------------------------------ *)

Section ScalingLaws.
Import Js Physics Spec.

Lemma drag_coherent_nonneg (gate alpha : Q) :
  0 <= estimateDragCoherentError gate alpha.
Proof.
  unfold estimateDragCoherentError.
  apply Qmult_le_0_compat; [discriminate |].
  apply Qmult_le_0_compat; apply Qpower_even_nonneg.
Qed.

Lemma gaussian_coherent_nonneg (gate alpha : Q) :
  0 <= estimateGaussianCoherentError gate alpha.
Proof.
  unfold estimateGaussianCoherentError.
  apply Qmult_le_0_compat; [discriminate |].
  apply Qmult_le_0_compat; apply Qpower_even_nonneg.
Qed.

(** C5: for a positive gate time and a nonzero anharmonicity, the DRAG
    coherent error is 4.9e-4 * (20/gate)^4 * (200/|alpha|)^2 and the
    Gaussian coherent error is 2.8e-2 * (20/gate)^2 * (200/|alpha|)^2;
    at the reference point (gate = 20 ns, |alpha| = 200 MHz) they are
    4.9e-4 and 2.8e-2. *)
Theorem coherent_error_scaling (gate alpha : Q) :
  0 < gate -> ~ alpha == 0 ->
  estimateDragCoherentError gate alpha
    == 4.9e-4 * (20 / gate) ^ 4 * (200 / Qabs alpha) ^ 2
  /\ estimateGaussianCoherentError gate alpha
    == 2.8e-2 * (20 / gate) ^ 2 * (200 / Qabs alpha) ^ 2
  /\ (Qabs alpha == 200 ->
      estimateDragCoherentError 20 alpha == 4.9e-4
      /\ estimateGaussianCoherentError 20 alpha == 2.8e-2).
Proof.
  intros Hg Ha.
  unfold estimateDragCoherentError, estimateGaussianCoherentError, Math_abs.
  split; [apply Qmult_assoc |]. split; [apply Qmult_assoc |].
  intro E. rewrite E. split; reflexivity.
Qed.

Lemma coherent_error_scaling_witness :
  estimateDragCoherentError 10 (-200) == 4.9e-4 * 16
  /\ estimateGaussianCoherentError 10 (-200) == 2.8e-2 * 4
  /\ estimateDragCoherentError 20 (-200) == 4.9e-4
  /\ estimateGaussianCoherentError 20 (-200) == 2.8e-2.
Proof.
  assert (Hg : 0 < 10) by reflexivity.
  assert (Ha : ~ -200 == 0) by discriminate.
  destruct (coherent_error_scaling 10 (-200) Hg Ha) as (A & B & C).
  split; [rewrite A; reflexivity |].
  split; [rewrite B; reflexivity |].
  apply C. reflexivity.
Defined.

(** C4: for a nonzero anharmonicity, drag_beta is
    -1 / (2 * alpha_rad_per_ns) with alpha_rad_per_ns = alpha_mhz *
    2*pi / 1000, and two parameter sets with the same anharmonicity get
    the identical drag_beta from [computeErrorBudget], whatever their
    T1, T2 and gate time. *)
Theorem drag_beta_depends_on_alpha_only (p q : HardwareParams) :
  ~ alpha_mhz p == 0 ->
  alpha_mhz q = alpha_mhz p ->
  drag_beta (computeErrorBudget p)
    == -1 / (2 * (alpha_mhz p * 2 * Math_PI / 1000))
  /\ drag_beta (computeErrorBudget p) = computeDragBeta (alpha_mhz p)
  /\ drag_beta (computeErrorBudget q) = drag_beta (computeErrorBudget p).
Proof.
  intros Ha E.
  assert (B : forall r, drag_beta (computeErrorBudget r)
                        = computeDragBeta (alpha_mhz r)).
  { intro r. unfold computeErrorBudget.
    destruct (ltb (gate_time_ns r) 15); [reflexivity |].
    destruct (ltb _ _); reflexivity. }
  split; [rewrite B; reflexivity |]. split; [apply B |].
  rewrite !B, E. reflexivity.
Qed.

Lemma drag_beta_depends_on_alpha_only_witness :
  drag_beta (computeErrorBudget
               {| alpha_mhz := -200; t1_us := 80; t2_us := 120;
                  gate_time_ns := 12 |})
  = drag_beta (computeErrorBudget garnet).
Proof.
  apply (drag_beta_depends_on_alpha_only garnet
           {| alpha_mhz := -200; t1_us := 80; t2_us := 120;
              gate_time_ns := 12 |}).
  - discriminate.
  - reflexivity.
Defined.

End ScalingLaws.

(* ------------------------------------------------------------------ *)
(** ** Budget assembly and regime classification                       *)
(* ------------------------------------------------------------------ *)

Section BudgetAssembly.
Import Js Physics Spec.

(** The branch of [computeErrorBudget] decides the regime and the
    recommendation only; every other field is the same in all three. *)
Ltac budget_branches p :=
  unfold computeErrorBudget;
  destruct (ltb (gate_time_ns p) 15);
  [| destruct (ltb (estimateDragCoherentError (gate_time_ns p) (alpha_mhz p))
                   (total (computeDecoherenceFloor
                             (gate_time_ns p) (t1_us p) (t2_us p)) * 0.5))].

Lemma budget_floor (p : HardwareParams) :
  decoherence_floor (computeErrorBudget p)
  = computeDecoherenceFloor (gate_time_ns p) (t1_us p) (t2_us p).
Proof. budget_branches p; reflexivity. Qed.

Lemma budget_infidelity (p : HardwareParams) :
  let floor := computeDecoherenceFloor (gate_time_ns p) (t1_us p) (t2_us p) in
  estimated_infidelity (computeErrorBudget p)
  = {| gaussian :=
         estimateGaussianCoherentError (gate_time_ns p) (alpha_mhz p)
         + total floor;
       drag :=
         estimateDragCoherentError (gate_time_ns p) (alpha_mhz p)
         + total floor;
       grape := total floor |}.
Proof. budget_branches p; reflexivity. Qed.

Lemma budget_params (p : HardwareParams) : params (computeErrorBudget p) = p.
Proof. budget_branches p; reflexivity. Qed.

Lemma regime_short_gate (p : HardwareParams) :
  gate_time_ns p < 15 -> regime (computeErrorBudget p) = short_gate_regime.
Proof.
  intro H. apply ltb_true_iff in H.
  unfold computeErrorBudget. rewrite H. reflexivity.
Qed.

Lemma regime_drag_sufficient (p : HardwareParams) :
  ~ gate_time_ns p < 15 ->
  estimateDragCoherentError (gate_time_ns p) (alpha_mhz p)
    < 0.5 * total (decoherence_floor (computeErrorBudget p)) ->
  regime (computeErrorBudget p) = drag_sufficient.
Proof.
  intros Hg Hd. rewrite budget_floor, Qmult_comm in Hd.
  apply ltb_false_iff in Hg. apply ltb_true_iff in Hd.
  unfold computeErrorBudget. rewrite Hg, Hd. reflexivity.
Qed.

Lemma regime_grape_needed (p : HardwareParams) :
  ~ gate_time_ns p < 15 ->
  ~ estimateDragCoherentError (gate_time_ns p) (alpha_mhz p)
      < 0.5 * total (decoherence_floor (computeErrorBudget p)) ->
  regime (computeErrorBudget p) = grape_needed.
Proof.
  intros Hg Hd. rewrite budget_floor, Qmult_comm in Hd.
  apply ltb_false_iff in Hg. apply ltb_false_iff in Hd.
  unfold computeErrorBudget. rewrite Hg, Hd. reflexivity.
Qed.

(** C1: [computeErrorBudget] classifies the regime by priority, first
    match wins: a gate time below 15 ns gives the short-gate regime
    (the literal [short_gate_regime] of the source); otherwise a DRAG
    coherent error below half the total decoherence floor gives
    [drag_sufficient]; otherwise the regime is [grape_needed]. *)
Theorem regime_priority (p : HardwareParams) :
  let b := computeErrorBudget p in
  let drag_coherent :=
    estimateDragCoherentError (gate_time_ns p) (alpha_mhz p) in
  (gate_time_ns p < 15 -> regime b = short_gate_regime)
  /\ (~ gate_time_ns p < 15 ->
      drag_coherent < 0.5 * total (decoherence_floor b) ->
      regime b = drag_sufficient)
  /\ (~ gate_time_ns p < 15 ->
      ~ drag_coherent < 0.5 * total (decoherence_floor b) ->
      regime b = grape_needed).
Proof.
  intros b drag_coherent. subst b drag_coherent.
  split; [apply regime_short_gate |].
  split; [apply regime_drag_sufficient | apply regime_grape_needed].
Qed.

Lemma regime_priority_witness :
  regime (computeErrorBudget (with_gate_time 14.999 garnet)) = short_gate_regime
  /\ regime (computeErrorBudget garnet) = drag_sufficient
  /\ regime (computeErrorBudget (with_gate_time 15 garnet)) = grape_needed.
Proof.
  split; [| split].
  - apply (regime_priority (with_gate_time 14.999 garnet)). reflexivity.
  - apply (regime_priority garnet).
    + intro H. discriminate H.
    + reflexivity.
  - apply (regime_priority (with_gate_time 15 garnet)).
    + intro H. discriminate H.
    + intro H. discriminate H.
Defined.

(** C3: for positive gate time, T1 and T2 and a nonzero anharmonicity,
    the budget has grape = floor total, drag = DRAG coherent error +
    floor total, gaussian = Gaussian coherent error + floor total;
    hence grape <= drag, grape <= gaussian, and each of the three
    estimated infidelities is at least the floor total. *)
Theorem infidelity_ordering (p : HardwareParams) :
  0 < gate_time_ns p -> 0 < t1_us p -> 0 < t2_us p -> ~ alpha_mhz p == 0 ->
  let b := computeErrorBudget p in
  let floor := total (decoherence_floor b) in
  let inf := estimated_infidelity b in
  grape inf == floor
  /\ drag inf
     == estimateDragCoherentError (gate_time_ns p) (alpha_mhz p) + floor
  /\ gaussian inf
     == estimateGaussianCoherentError (gate_time_ns p) (alpha_mhz p) + floor
  /\ grape inf <= drag inf
  /\ grape inf <= gaussian inf
  /\ floor <= gaussian inf /\ floor <= drag inf /\ floor <= grape inf.
Proof.
  intros Hg H1 H2 Ha b floor inf. subst b floor inf.
  rewrite budget_floor, budget_infidelity. cbn [grape drag gaussian].
  pose proof (drag_coherent_nonneg (gate_time_ns p) (alpha_mhz p)) as Hd.
  pose proof (gaussian_coherent_nonneg (gate_time_ns p) (alpha_mhz p)) as Hgs.
  repeat split; try reflexivity; lra.
Qed.

Lemma infidelity_ordering_witness :
  grape (estimated_infidelity (computeErrorBudget garnet))
  <= drag (estimated_infidelity (computeErrorBudget garnet))
  /\ grape (estimated_infidelity (computeErrorBudget garnet))
     <= gaussian (estimated_infidelity (computeErrorBudget garnet)).
Proof.
  destruct (infidelity_ordering garnet) as (_ & _ & _ & A & B & _);
    try reflexivity; [discriminate |].
  split; [exact A | exact B].
Defined.

(** The scenario of the specification, evaluated. *)
Example garnet_budget_values :
  let b := computeErrorBudget garnet in
  Qred (t1_contribution (decoherence_floor b)) = 1 # 3700
  /\ Qred (t2_contribution (decoherence_floor b)) = 161 # 88800
  /\ Qred (total (decoherence_floor b)) = 1 # 480
  /\ Qred (drag_beta b) = 70368744177664 # 176855943800711.
Proof. vm_compute. repeat split. Qed.

(** C6, as the specification states it, fails on its last figure:
    drag_beta of the scenario is not 3.979e-3, not even within 0.1. *)
Lemma garnet_drag_beta_is_not_4e_3 :
  ~ approx (drag_beta (computeErrorBudget garnet)) 3.979e-3 0.1.
Proof. unfold approx. vm_compute. intro H. apply H. reflexivity. Qed.

(** C6 (amended): for alpha = -200 MHz, T1 = 37 us, T2 = 9.6 us and a
    20 ns gate, t1_contribution = 20/(2*37000) ~ 2.703e-4,
    t2_contribution = 20/9600 - 20/74000 ~ 1.813e-3 (within 2e-6 of the
    1.812e-3 of the specification), total = 20/9600 ~ 2.083e-3 (within
    2e-6 of 2.082e-3), the DRAG coherent error is 4.9e-4 (scaling ratio
    1), which is below half the total, so the regime is
    drag_sufficient; and drag_beta = -1/(2 * (-200*2*pi/1000))
    ~ 3.979e-1 ns. *)
Theorem garnet_scenario :
  let b := computeErrorBudget garnet in
  let floor := decoherence_floor b in
  let drag_coherent := estimateDragCoherentError 20 (-200) in
  t1_contribution floor == 20 / (2 * 37000)
  /\ approx (t1_contribution floor) 2.703e-4 5e-8
  /\ t2_contribution floor == 20 / 9600 - 20 / 74000
  /\ approx (t2_contribution floor) 1.813e-3 5e-7
  /\ approx (t2_contribution floor) 1.812e-3 2e-6
  /\ total floor == 20 / 9600
  /\ approx (total floor) 2.083e-3 5e-7
  /\ approx (total floor) 2.082e-3 2e-6
  /\ drag_coherent == 4.9e-4
  /\ drag (estimated_infidelity b) == drag_coherent + total floor
  /\ drag_coherent < 0.5 * total floor
  /\ regime b = drag_sufficient
  /\ drag_beta b == -1 / (2 * (-200 * 2 * Math_PI / 1000))
  /\ approx (drag_beta b) 3.979e-1 5e-5.
Proof.
  unfold approx. vm_compute.
  repeat split; intro H; discriminate H.
Qed.

End BudgetAssembly.

(* ------------------------------------------------------------------ *)
(** ** Robustness estimation                                           *)
(* ------------------------------------------------------------------ *)

Section Robustness.
Import Js Physics Spec.

Lemma gate_factor_cases (gate : Q) :
  0 < gate ->
  gate_factor gate <= 1
  /\ (20 <= gate -> gate_factor gate == 20 / gate)
  /\ (gate <= 20 -> gate_factor gate == 1).
Proof.
  intro Hg. unfold gate_factor. split; [apply Q.le_min_l |].
  split; intro H.
  - apply Q.min_r. apply Qle_shift_div_r; lra.
  - apply Q.min_l. apply Qle_shift_div_l; lra.
Qed.

(** C9: for a positive gate time [estimateRobustness] returns exactly
    three estimates, for Gaussian, DRAG and GRAPE in this order; each
    minimum fidelity is reference * (1 - coefficient * gate_factor)
    with gate_factor = min(1, 20/gate_time_ns) and the references and
    coefficients of the fixed table; the robustness flags are the
    constants of the table, the same for every input. *)
Theorem robustness_realises_table (p q : HardwareParams) :
  0 < gate_time_ns p ->
  let gf := Qmin 1 (20 / gate_time_ns p) in
  length (estimateRobustness p) = 3%nat
  /\ map method (estimateRobustness p) = ["Gaussian"; "DRAG"; "GRAPE"]%string
  /\ Forall2 (realises gf) robustness_table (estimateRobustness p)
  /\ map detuning_robust (estimateRobustness p) = [false; true; false]
  /\ map amplitude_robust (estimateRobustness p) = [false; true; true]
  /\ map detuning_robust (estimateRobustness q)
     = map detuning_robust (estimateRobustness p)
  /\ map amplitude_robust (estimateRobustness q)
     = map amplitude_robust (estimateRobustness p)
  /\ gf <= 1
  /\ (20 <= gate_time_ns p -> gf == 20 / gate_time_ns p)
  /\ (gate_time_ns p <= 20 -> gf == 1).
Proof.
  intros Hg gf. subst gf.
  repeat (split; [reflexivity |]).
  split; [| repeat (split; [reflexivity |])].
  - unfold estimateRobustness, robustness_table, Math_min.
    repeat constructor.
  - apply gate_factor_cases. exact Hg.
Qed.

Lemma robustness_realises_table_witness :
  map method (estimateRobustness garnet) = ["Gaussian"; "DRAG"; "GRAPE"]%string
  /\ Forall2 (realises 1) robustness_table (estimateRobustness garnet)
  /\ map detuning_robust (estimateRobustness (with_gate_time 40 garnet))
     = map detuning_robust (estimateRobustness garnet).
Proof.
  assert (Hg : 0 < gate_time_ns garnet) by reflexivity.
  destruct (robustness_realises_table garnet (with_gate_time 40 garnet) Hg)
    as (_ & A & B & _ & _ & C & _).
  split; [exact A |]. split; [exact B | exact C].
Defined.

End Robustness.

(* ------------------------------------------------------------------ *)
(** ** The chat tool and the REST endpoint                             *)
(* ------------------------------------------------------------------ *)

Section Callers.
Import Js Spec.
Import Physics.

(** The [compute_error_budget] case of [executeTool], as one equation. *)
Lemma executeTool_compute_error_budget
    (now : string) (args : Index.ToolArgs) (state : Index.AgentState) :
  let p := Index.params_of_args args in
  Index.executeTool now "compute_error_budget" args state
  = (if gtb (t2_us p) (2 * t1_us p) then Index.warning_t2 p
     else if gtb (alpha_mhz p) 0 then Index.warning_alpha p
     else if leb (gate_time_ns p) 0 || leb (t1_us p) 0 || leb (t2_us p) 0
          then Index.error_positive
          else formatErrorBudget (computeErrorBudget p),
     state).
Proof.
  intro p. subst p. unfold Index.executeTool.
  rewrite String.eqb_refl.
  destruct (gtb _ _); [reflexivity |].
  destruct (gtb _ _); [reflexivity |].
  destruct (_ || _); reflexivity.
Qed.

Lemma params_of_args_of (p : HardwareParams) :
  Index.params_of_args (args_of p) = p.
Proof. destruct p; reflexivity. Qed.

Lemma non_positive_checked (p : HardwareParams) :
  non_positive p ->
  leb (gate_time_ns p) 0 || leb (t1_us p) 0 || leb (t2_us p) 0 = true.
Proof.
  intros [f H]. unfold field_fails in H.
  rewrite !orb_true_iff, !leb_true_iff.
  destruct f; simpl in H; tauto.
Qed.

(** A formatted budget opens with its banner; no validation message
    does. *)
Lemma formatted_budget_banner (F : number_format) (b : ErrorBudget) :
  String.prefix banner (render F (formatErrorBudget b)) = true.
Proof. reflexivity. Qed.

Lemma validation_messages_banner (F : number_format) (p : HardwareParams) :
  String.prefix banner (render F (Index.warning_t2 p)) = false
  /\ String.prefix banner (render F (Index.warning_alpha p)) = false
  /\ String.prefix banner (render F Index.error_positive) = false.
Proof. repeat split. Qed.

Lemma tool_reply_eq (p : HardwareParams) :
  tool_reply p
  = if gtb (t2_us p) (2 * t1_us p) then Index.warning_t2 p
    else if gtb (alpha_mhz p) 0 then Index.warning_alpha p
    else if leb (gate_time_ns p) 0 || leb (t1_us p) 0 || leb (t2_us p) 0
         then Index.error_positive
         else formatErrorBudget (computeErrorBudget p).
Proof.
  unfold tool_reply. rewrite executeTool_compute_error_budget.
  rewrite params_of_args_of. reflexivity.
Qed.

(** On valid input the tool does compute and format the budget. *)
Lemma valid_input_computed (p : HardwareParams) :
  t2_us p <= 2 * t1_us p -> alpha_mhz p <= 0 -> positive_times p ->
  tool_reply p = formatErrorBudget (computeErrorBudget p).
Proof.
  intros H2 Ha (Hg & H1 & H2').
  rewrite tool_reply_eq.
  assert (E1 : gtb (t2_us p) (2 * t1_us p) = false)
    by (apply ltb_false_iff; lra).
  assert (E2 : gtb (alpha_mhz p) 0 = false) by (apply ltb_false_iff; lra).
  assert (E3 : leb (gate_time_ns p) 0 = false) by (apply leb_false_iff; lra).
  assert (E4 : leb (t1_us p) 0 = false) by (apply leb_false_iff; lra).
  assert (E5 : leb (t2_us p) 0 = false) by (apply leb_false_iff; lra).
  rewrite E1, E2, E3, E4, E5. reflexivity.
Qed.

(** C8, as the specification states it, fails: the reply does not
    report which field failed.  A zero gate time and a zero T2 get the
    same reply, so nothing read off the reply names the failing
    field. *)
Lemma error_reply_names_no_field :
  ~ exists which : text -> TimeField,
      forall p, non_positive p -> field_fails p (which (tool_reply p)).
Proof.
  intros [which H].
  assert (A : non_positive (with_gate_time 0 garnet))
    by (exists GateTime; discriminate).
  assert (B : non_positive (with_t2 0 garnet))
    by (exists T2; discriminate).
  apply H in A. apply H in B.
  change (tool_reply (with_gate_time 0 garnet)) with Index.error_positive in A.
  change (tool_reply (with_t2 0 garnet)) with Index.error_positive in B.
  destruct (which Index.error_positive).
  - apply B. reflexivity.
  - apply B. reflexivity.
  - apply A. reflexivity.
Qed.

(** C8 (amended): whenever gate_time_ns, t1_us or t2_us is <= 0, the
    [compute_error_budget] tool does not compute: the agent state is
    untouched and the reply is a validation message, never a formatted
    budget.  The message is the T2 warning if t2_us > 2*t1_us, else the
    anharmonicity warning if alpha_mhz > 0, else the fixed text
    [Error: All time parameters must be positive.], which names no
    field. *)
Theorem non_positive_refused
    (now : string) (args : Index.ToolArgs) (state : Index.AgentState) :
  non_positive (Index.params_of_args args) ->
  let p := Index.params_of_args args in
  let result := Index.executeTool now "compute_error_budget" args state in
  snd result = state
  /\ (2 * t1_us p < t2_us p -> fst result = Index.warning_t2 p)
  /\ (t2_us p <= 2 * t1_us p -> 0 < alpha_mhz p ->
      fst result = Index.warning_alpha p)
  /\ (t2_us p <= 2 * t1_us p -> alpha_mhz p <= 0 ->
      fst result = Index.error_positive)
  /\ (fst result = Index.warning_t2 p
      \/ fst result = Index.warning_alpha p
      \/ fst result = Index.error_positive)
  /\ (forall b, fst result <> formatErrorBudget b)
  /\ (forall F, String.prefix banner (render F (fst result)) = false).
Proof.
  intros Hnp p result. subst result.
  rewrite executeTool_compute_error_budget. fold p. cbn [fst snd].
  apply non_positive_checked in Hnp. fold p in Hnp. rewrite Hnp.
  split; [reflexivity |].
  destruct (gtb (t2_us p) (2 * t1_us p)) eqn:E1;
    [| destruct (gtb (alpha_mhz p) 0) eqn:E2].
  - apply gtb_true_iff in E1.
    repeat split; try discriminate;
      try (intros; lra); try reflexivity.
    left; reflexivity.
  - apply ltb_false_iff in E1. apply gtb_true_iff in E2.
    repeat split; try discriminate;
      try (intros; lra); try reflexivity.
    right; left; reflexivity.
  - apply ltb_false_iff in E1. apply ltb_false_iff in E2.
    repeat split; try discriminate;
      try (intros; lra); try reflexivity.
    right; right; reflexivity.
Qed.

Lemma non_positive_refused_witness :
  Index.executeTool "2026-01-01T00:00:00.000Z" "compute_error_budget"
    (args_of (with_gate_time 0 garnet)) empty_state
  = (Index.error_positive, empty_state)
  /\ fst (Index.executeTool "" "compute_error_budget"
            (args_of (with_t2 100 (with_gate_time 0 garnet))) empty_state)
     = Index.warning_t2 (with_t2 100 (with_gate_time 0 garnet))
  /\ fst (Index.executeTool "" "compute_error_budget"
            (args_of (with_alpha 200 (with_gate_time 0 garnet))) empty_state)
     = Index.warning_alpha (with_alpha 200 (with_gate_time 0 garnet)).
Proof.
  assert (Hnp : forall q, gate_time_ns q = 0 ->
                  non_positive (Index.params_of_args (args_of q))).
  { intros q E. exists GateTime. unfold field_fails.
    rewrite params_of_args_of. simpl. rewrite E. discriminate. }
  destruct (non_positive_refused "2026-01-01T00:00:00.000Z"
              (args_of (with_gate_time 0 garnet)) empty_state
              (Hnp (with_gate_time 0 garnet) eq_refl))
    as (S & _ & _ & E & _).
  destruct (non_positive_refused ""
              (args_of (with_t2 100 (with_gate_time 0 garnet))) empty_state
              (Hnp (with_t2 100 (with_gate_time 0 garnet)) eq_refl))
    as (_ & W & _).
  destruct (non_positive_refused ""
              (args_of (with_alpha 200 (with_gate_time 0 garnet))) empty_state
              (Hnp (with_alpha 200 (with_gate_time 0 garnet)) eq_refl))
    as (_ & _ & A & _).
  split; [| split].
  - rewrite (surjective_pairing (Index.executeTool _ _ _ _)).
    rewrite S, E; [reflexivity | discriminate | discriminate].
  - apply W. reflexivity.
  - apply A; [discriminate | reflexivity].
Defined.

(** C10: [computeErrorBudget] validates nothing.  The REST endpoint
    answers every parsed body with status 200 and the complete budget
    of [computeErrorBudget], whose recommendation is one of the three
    regime texts (no warning, no error); with T2 > 2*T1 the clamp
    zeroes the dephasing term without notice.  The checks live in the
    chat tool only: on the same inputs it replies with a warning or the
    error, where the endpoint returns a budget. *)
Theorem validation_only_in_chat_tool
    (route : Index.Request -> option Index.Response) (p : HardwareParams) :
  let b := computeErrorBudget p in
  let floor := decoherence_floor b in
  let drag_coherent :=
    estimateDragCoherentError (gate_time_ns p) (alpha_mhz p) in
  Index.fetch route (api_request p)
  = {| Index.status := 200;
       Index.headers := [("Content-Type", "application/json")%string];
       Index.payload := Index.JsonBudget b |}
  /\ params b = p
  /\ (recommendation b = recommendation_short_gate (gate_time_ns p)
      \/ recommendation b
         = recommendation_drag_sufficient drag_coherent floor
             (drag_coherent + total floor) (total floor) (t2_us p)
      \/ recommendation b = recommendation_grape_needed drag_coherent floor)
  /\ (0 < gate_time_ns p -> 0 < t1_us p -> 2 * t1_us p < t2_us p ->
      t2_contribution floor == 0
      /\ total floor == t1_contribution floor
      /\ tool_reply p = Index.warning_t2 p)
  /\ (t2_us p <= 2 * t1_us p -> 0 < alpha_mhz p ->
      tool_reply p = Index.warning_alpha p)
  /\ (t2_us p <= 2 * t1_us p -> alpha_mhz p <= 0 -> non_positive p ->
      tool_reply p = Index.error_positive).
Proof.
  intros b floor drag_coherent. subst b floor drag_coherent.
  split; [reflexivity |]. split; [apply budget_params |].
  split.
  { rewrite budget_floor. unfold computeErrorBudget.
    destruct (ltb (gate_time_ns p) 15); [left; reflexivity |].
    destruct (ltb _ _); [right; left | right; right]; reflexivity. }
  rewrite budget_floor, tool_reply_eq.
  split; [| split].
  - intros Hg H1 H2.
    assert (Z : t2_contribution
                  (computeDecoherenceFloor (gate_time_ns p) (t1_us p) (t2_us p))
                == 0).
    { simpl. apply Q.max_l.
      assert (D : gate_time_ns p / (t2_us p * 1000)
                  <= gate_time_ns p / (2 * (t1_us p * 1000)))
        by (apply Qdiv_le_denominator; lra).
      lra. }
    split; [exact Z |]. split.
    + simpl in Z |- *. rewrite Z. ring.
    + apply gtb_true_iff in H2. rewrite H2. reflexivity.
  - intros H2 Ha.
    assert (E1 : gtb (t2_us p) (2 * t1_us p) = false)
      by (apply ltb_false_iff; lra).
    apply gtb_true_iff in Ha. rewrite E1, Ha. reflexivity.
  - intros H2 Ha Hnp.
    assert (E1 : gtb (t2_us p) (2 * t1_us p) = false)
      by (apply ltb_false_iff; lra).
    assert (E2 : gtb (alpha_mhz p) 0 = false) by (apply ltb_false_iff; lra).
    apply non_positive_checked in Hnp. rewrite E1, E2, Hnp. reflexivity.
Qed.

Lemma validation_only_in_chat_tool_witness :
  Index.payload (Index.fetch (fun _ => None) (api_request (with_t2 100 garnet)))
  = Index.JsonBudget (computeErrorBudget (with_t2 100 garnet))
  /\ t2_contribution (decoherence_floor (computeErrorBudget (with_t2 100 garnet)))
     == 0
  /\ tool_reply (with_t2 100 garnet) = Index.warning_t2 (with_t2 100 garnet)
  /\ tool_reply (with_alpha 200 garnet)
     = Index.warning_alpha (with_alpha 200 garnet)
  /\ tool_reply (with_gate_time 0 garnet) = Index.error_positive.
Proof.
  destruct (validation_only_in_chat_tool (fun _ => None) (with_t2 100 garnet))
    as (A & _ & _ & B & _).
  destruct B as (B1 & _ & B2); try reflexivity.
  destruct (validation_only_in_chat_tool (fun _ => None) (with_alpha 200 garnet))
    as (_ & _ & _ & _ & C & _).
  destruct (validation_only_in_chat_tool (fun _ => None)
              (with_gate_time 0 garnet))
    as (_ & _ & _ & _ & _ & D).
  split; [rewrite A; reflexivity |]. split; [exact B1 |]. split; [exact B2 |].
  split.
  - apply C; [discriminate | reflexivity].
  - apply D; [discriminate | discriminate | exists GateTime; discriminate].
Defined.

End Callers.

(* ------------------------------------------------------------------ *)
(** ** Further properties of the physics functions                     *)
(* ------------------------------------------------------------------ *)

Section ScalingProperties.
Import Js Physics Spec.

(** Side conditions of [field]: a factor is not zero. *)
Ltac nonzero :=
  repeat split;
  first [ lra
        | let NZ := fresh "NZ" in intro NZ; vm_compute in NZ; discriminate NZ ].

Lemma Qabs_pos_of_nonzero (a : Q) : ~ a == 0 -> 0 < Qabs a.
Proof.
  intro Ha. apply Qabs_case; intro H.
  - destruct (Qle_lt_or_eq _ _ H) as [L | E]; [exact L |].
    exfalso. apply Ha. symmetry. exact E.
  - destruct (Qle_lt_or_eq _ _ H) as [L | E]; [lra |].
    exfalso. apply Ha. exact E.
Qed.




Lemma drag_beta_opp (alpha : Q) :
  computeDragBeta (- alpha) == - computeDragBeta alpha.
Proof.
  unfold computeDragBeta.
  destruct (Qeq_dec alpha 0) as [E | NE].
  - rewrite E. reflexivity.
  - assert (P : 0 < Math_PI) by reflexivity. field; nonzero.
Qed.


(** In exact arithmetic the two power laws cross at a gate time of
    sqrt 7 ns. *)
Lemma exact_drag_below_gaussian_iff (gate alpha : Q) :
  0 < gate -> ~ alpha == 0 ->
  (estimateDragCoherentError gate alpha
     <= estimateGaussianCoherentError gate alpha
   <-> 7 <= gate * gate).
Proof.
  intros Hg Ha. apply Qabs_pos_of_nonzero in Ha.
  set (m := (20 / gate) ^ 2 * (200 / Qabs alpha) ^ 2).
  assert (Hm : 0 < m).
  { apply Qmult_lt_0_compat; apply Qpower_0_lt; apply Qlt_shift_div_l; lra. }
  assert (D : estimateDragCoherentError gate alpha
              == (0.196 / (gate * gate)) * m).
  { unfold estimateDragCoherentError, Math_abs, m.
    change 4.9e-4 with (49 # 100000). field; nonzero. }
  assert (G : estimateGaussianCoherentError gate alpha == 0.028 * m).
  { unfold estimateGaussianCoherentError, Math_abs, m.
    change 2.8e-2 with (28 # 1000). field; nonzero. }
  rewrite D, G, Qmult_le_r by exact Hm.
  assert (Hw : 0 < gate * gate) by (apply Qmult_lt_0_compat; exact Hg).
  split; intro H.
  - assert (E : 0.196 / (gate * gate) * (gate * gate) == 0.196)
      by (field; nonzero).
    assert (L : 0.196 / (gate * gate) * (gate * gate)
                <= 0.028 * (gate * gate))
      by (apply Qmult_le_compat_r; [exact H | lra]).
    rewrite E in L. lra.
  - apply Qle_shift_div_r; [exact Hw | lra].
Qed.

(** From a gate time of 3 ns on, the DRAG coherent error is estimated
    no larger than the Gaussian one; up to 2 ns it is the other way
    round: the fourth-power law has overtaken the square law and DRAG
    is estimated no better than the uncorrected pulse. *)
Theorem drag_versus_gaussian (gate alpha : Q) :
  0 < gate -> ~ alpha == 0 ->
  (3 <= gate ->
   estimateDragCoherentError gate alpha
   <= estimateGaussianCoherentError gate alpha)
  /\ (gate <= 2 ->
      estimateGaussianCoherentError gate alpha
      <= estimateDragCoherentError gate alpha).
Proof.
  intros Hg Ha.
  pose proof (exact_drag_below_gaussian_iff gate alpha Hg Ha) as I.
  split; intro H.
  - apply I.
    assert (S : 3 * 3 <= gate * gate)
      by (apply Qmult_le_compat_nonneg; split; lra).
    lra.
  - apply Qlt_le_weak. apply Qnot_le_lt. intro L. apply I in L.
    assert (S : gate * gate <= 2 * 2)
      by (apply Qmult_le_compat_nonneg; split; lra).
    lra.
Qed.

Lemma drag_versus_gaussian_witness :
  estimateDragCoherentError 3 (-200) <= estimateGaussianCoherentError 3 (-200)
  /\ estimateGaussianCoherentError 2 (-200)
     <= estimateDragCoherentError 2 (-200).
Proof.
  split.
  - apply (drag_versus_gaussian 3 (-200));
      [reflexivity | discriminate | discriminate].
  - apply (drag_versus_gaussian 2 (-200));
      [reflexivity | discriminate | discriminate].
Defined.

(** In exact arithmetic the DRAG parameter is -250 / (pi * alpha). *)
Lemma exact_drag_beta_closed_form (alpha : Q) :
  ~ alpha == 0 -> computeDragBeta alpha == -250 / (Math_PI * alpha).
Proof.
  intro Ha. unfold computeDragBeta.
  assert (P : 0 < Math_PI) by reflexivity. field; nonzero.
Qed.

Lemma drag_beta_positive (alpha : Q) : alpha < 0 -> 0 < computeDragBeta alpha.
Proof.
  intro Hneg. rewrite exact_drag_beta_closed_form by lra.
  assert (P : 0 < Math_PI) by reflexivity.
  assert (E : -250 / (Math_PI * alpha) == 250 / (Math_PI * - alpha))
    by (field; nonzero).
  rewrite E. apply Qlt_shift_div_l; [| lra].
  apply Qmult_lt_0_compat; lra.
Qed.

(** The DRAG parameter is odd in the anharmonicity and of the opposite
    sign (positive for a transmon), and a larger magnitude of the
    anharmonicity never gives a larger magnitude of beta. *)
Theorem drag_beta_sign_and_order (alpha alpha' : Q) :
  ~ alpha == 0 ->
  computeDragBeta (- alpha) == - computeDragBeta alpha
  /\ (alpha < 0 -> 0 < computeDragBeta alpha)
  /\ (0 < alpha -> computeDragBeta alpha < 0)
  /\ (alpha <= alpha' -> alpha' < 0 ->
      computeDragBeta alpha <= computeDragBeta alpha').
Proof.
  intro Ha.
  split; [apply drag_beta_opp |].
  split; [apply drag_beta_positive |].
  split.
  - intro Hpos.
    assert (N : 0 < computeDragBeta (- alpha))
      by (apply drag_beta_positive; lra).
    rewrite drag_beta_opp in N. lra.
  - intros Hle Hneg.
    assert (P : 0 < Math_PI) by reflexivity.
    rewrite !exact_drag_beta_closed_form by lra.
    assert (E : forall a, a < 0 ->
                  -250 / (Math_PI * a) == 250 / (Math_PI * - a))
      by (intros a Hn; field; nonzero).
    rewrite (E alpha), (E alpha') by lra.
    apply Qdiv_le_denominator; [lra | |].
    + apply Qmult_lt_0_compat; lra.
    + rewrite !(Qmult_comm Math_PI).
      apply Qmult_le_compat_r; lra.
Qed.

Lemma drag_beta_sign_and_order_witness :
  0 < computeDragBeta (-200)
  /\ computeDragBeta (-300) <= computeDragBeta (-200).
Proof.
  destruct (drag_beta_sign_and_order (-200) (-200)) as (_ & A & _);
    [discriminate |].
  destruct (drag_beta_sign_and_order (-300) (-200)) as (_ & _ & _ & B);
    [discriminate |].
  split; [apply A; reflexivity | apply B; [discriminate | reflexivity]].
Defined.

End ScalingProperties.

Section BudgetProperties.
Import Js Physics Spec.

Lemma budget_regime (p : HardwareParams) :
  regime (computeErrorBudget p)
  = if ltb (gate_time_ns p) 15 then short_gate_regime
    else if ltb (estimateDragCoherentError (gate_time_ns p) (alpha_mhz p))
                (floor_total (gate_time_ns p) (t1_us p) (t2_us p) * 0.5)
         then drag_sufficient
         else grape_needed.
Proof.
  unfold computeErrorBudget, floor_total.
  destruct (ltb (gate_time_ns p) 15); [reflexivity |].
  destruct (ltb _ _); reflexivity.
Qed.

(** What the regime says about the estimates, for positive times and
    a nonzero anharmonicity.  In [drag_sufficient] the GRAPE estimate
    (the floor) is positive and the DRAG estimate is at most 1.5 times
    it, so the ratio printed in the recommendation is at most 1.50; in
    [grape_needed] the DRAG estimate is at least 1.5 times the GRAPE
    estimate.  Both regimes occur only from 15 ns on. *)
Theorem regime_bounds_drag_over_grape (p : HardwareParams) :
  0 < gate_time_ns p -> 0 < t1_us p -> 0 < t2_us p -> ~ alpha_mhz p == 0 ->
  let b := computeErrorBudget p in
  let inf := estimated_infidelity b in
  (regime b = drag_sufficient ->
   15 <= gate_time_ns p /\ 0 < grape inf /\ drag inf <= 1.5 * grape inf)
  /\ (regime b = grape_needed ->
      15 <= gate_time_ns p /\ 1.5 * grape inf <= drag inf).
Proof.
  intros Hg H1 H2 Ha b inf. subst b inf.
  rewrite budget_regime, budget_infidelity. cbn [grape drag].
  fold (floor_total (gate_time_ns p) (t1_us p) (t2_us p)).
  pose proof (drag_coherent_nonneg (gate_time_ns p) (alpha_mhz p)) as Hd.
  destruct (ltb (gate_time_ns p) 15) eqn:Eg.
  - split; intro H; discriminate H.
  - apply ltb_false_iff in Eg.
    destruct (ltb _ _) eqn:Ed.
    + apply ltb_true_iff in Ed.
      split; intro H; [| discriminate H]. repeat split; lra.
    + apply ltb_false_iff in Ed.
      split; intro H; [discriminate H |]. split; lra.
Qed.

Lemma regime_bounds_drag_over_grape_witness :
  0 < grape (estimated_infidelity (computeErrorBudget garnet))
  /\ drag (estimated_infidelity (computeErrorBudget garnet))
     <= 1.5 * grape (estimated_infidelity (computeErrorBudget garnet))
  /\ 1.5 * grape (estimated_infidelity
                    (computeErrorBudget (with_gate_time 15 garnet)))
     <= drag (estimated_infidelity
                (computeErrorBudget (with_gate_time 15 garnet))).
Proof.
  destruct (regime_bounds_drag_over_grape garnet) as [A _];
    [reflexivity | reflexivity | reflexivity | discriminate |].
  destruct (regime_bounds_drag_over_grape (with_gate_time 15 garnet))
    as [_ B]; [reflexivity | reflexivity | reflexivity | discriminate |].
  destruct A as (_ & A1 & A2); [reflexivity |].
  destruct B as (_ & B1); [reflexivity |].
  split; [exact A1 |]. split; [exact A2 | exact B1].
Defined.

End BudgetProperties.

(* ------------------------------------------------------------------ *)
(** ** Further properties of the robustness estimates                  *)
(* ------------------------------------------------------------------ *)

Section RobustnessProperties.
Import Js Physics Spec Calls.

Lemma gate_factor_positive (gate : Q) : 0 < gate -> 0 < gate_factor gate <= 1.
Proof.
  intro Hg. unfold gate_factor. split; [| apply Q.le_min_l].
  apply Q.min_glb_lt; [reflexivity |].
  apply Qlt_shift_div_l; lra.
Qed.

Lemma gate_factor_antitone (gate gate' : Q) :
  0 < gate -> gate <= gate' -> gate_factor gate' <= gate_factor gate.
Proof.
  intros Hg Hle. unfold gate_factor.
  apply Q.min_le_compat_l. apply Qdiv_le_denominator; lra.
Qed.

(** For a positive gate time every estimated minimum fidelity is a
    fidelity: strictly between 0 and 1. *)
Theorem robustness_fidelities_are_fidelities (p : HardwareParams) :
  0 < gate_time_ns p ->
  Forall fidelities_in_unit_interval (estimateRobustness p).
Proof.
  intro Hg. apply gate_factor_positive in Hg.
  unfold estimateRobustness, Math_min.
  fold (gate_factor (gate_time_ns p)).
  destruct Hg as [Hlo Hhi].
  repeat constructor; cbn [detuning_min_fidelity amplitude_min_fidelity]; lra.
Qed.

Lemma robustness_fidelities_are_fidelities_witness :
  Forall fidelities_in_unit_interval (estimateRobustness garnet).
Proof.
  apply (robustness_fidelities_are_fidelities garnet). reflexivity.
Defined.

(** A longer gate is never estimated less robust: both minimum
    fidelities of every method are non-decreasing in the gate time. *)
Theorem robustness_improves_with_gate_time (p p' : HardwareParams) :
  0 < gate_time_ns p -> gate_time_ns p <= gate_time_ns p' ->
  Forall2 no_less_robust (estimateRobustness p) (estimateRobustness p').
Proof.
  intros Hg Hle.
  pose proof (gate_factor_antitone _ _ Hg Hle) as Hgf.
  unfold estimateRobustness, Math_min.
  fold (gate_factor (gate_time_ns p)) (gate_factor (gate_time_ns p')).
  repeat constructor; cbn [detuning_min_fidelity amplitude_min_fidelity]; lra.
Qed.

Lemma robustness_improves_with_gate_time_witness :
  Forall2 no_less_robust
    (estimateRobustness garnet) (estimateRobustness (with_gate_time 40 garnet)).
Proof.
  apply (robustness_improves_with_gate_time garnet (with_gate_time 40 garnet)).
  - reflexivity.
  - unfold Qle; simpl; lia.
Defined.

(** The ranking of the methods does not depend on the gate time.
    Against detuning DRAG is estimated best and GRAPE worst; against
    amplitude error GRAPE is best and Gaussian worst. *)
Theorem robustness_ranking (p : HardwareParams) :
  0 < gate_time_ns p ->
  exists gaussian_est drag_est grape_est,
    estimateRobustness p = [gaussian_est; drag_est; grape_est]
    /\ detuning_min_fidelity grape_est < detuning_min_fidelity gaussian_est
    /\ detuning_min_fidelity gaussian_est < detuning_min_fidelity drag_est
    /\ amplitude_min_fidelity gaussian_est < amplitude_min_fidelity drag_est
    /\ amplitude_min_fidelity drag_est < amplitude_min_fidelity grape_est.
Proof.
  intro Hg. apply gate_factor_positive in Hg. destruct Hg as [Hlo Hhi].
  unfold estimateRobustness, Math_min.
  fold (gate_factor (gate_time_ns p)).
  do 3 eexists. split; [reflexivity |].
  cbn [detuning_min_fidelity amplitude_min_fidelity].
  repeat split; lra.
Qed.

Lemma robustness_ranking_witness :
  exists gaussian_est drag_est grape_est,
    estimateRobustness garnet = [gaussian_est; drag_est; grape_est]
    /\ detuning_min_fidelity grape_est < detuning_min_fidelity gaussian_est
    /\ detuning_min_fidelity gaussian_est < detuning_min_fidelity drag_est
    /\ amplitude_min_fidelity gaussian_est < amplitude_min_fidelity drag_est
    /\ amplitude_min_fidelity drag_est < amplitude_min_fidelity grape_est.
Proof.
  apply (robustness_ranking garnet). reflexivity.
Defined.

(** [estimateRobustness] checks nothing.  The cap of the gate factor
    guards from above only: for a negative gate time the factor is
    negative and no estimate is below its reference fidelity, and from
    -10 ns up to zero the DRAG estimates exceed 1, which no fidelity
    can. *)
Theorem robustness_of_negative_gate_time (p : HardwareParams) :
  gate_time_ns p < 0 ->
  Forall2 at_least_reference robustness_table (estimateRobustness p)
  /\ (-10 <= gate_time_ns p ->
      exists gaussian_est drag_est grape_est,
        estimateRobustness p = [gaussian_est; drag_est; grape_est]
        /\ 1 < detuning_min_fidelity drag_est
        /\ 1 < amplitude_min_fidelity drag_est).
Proof.
  intro Hg.
  assert (E : 20 / gate_time_ns p == - (20 / - gate_time_ns p))
    by (field; lra).
  assert (Hgf : gate_factor (gate_time_ns p) < 0).
  { unfold gate_factor.
    apply Qle_lt_trans with (20 / gate_time_ns p); [apply Q.le_min_r |].
    assert (P : 0 < 20 / - gate_time_ns p)
      by (apply Qlt_shift_div_l; lra).
    lra. }
  unfold estimateRobustness, robustness_table, Math_min.
  fold (gate_factor (gate_time_ns p)).
  split.
  - repeat constructor;
      cbn [detuning_min_fidelity amplitude_min_fidelity
           detuning_ref amplitude_ref]; lra.
  - intro Hlo.
    assert (Hgf2 : gate_factor (gate_time_ns p) <= -2).
    { unfold gate_factor.
      apply Qle_trans with (20 / gate_time_ns p); [apply Q.le_min_r |].
      assert (P : 2 <= 20 / - gate_time_ns p)
        by (apply Qle_shift_div_l; lra).
      lra. }
    do 3 eexists. split; [reflexivity |].
    cbn [detuning_min_fidelity amplitude_min_fidelity]. split; lra.
Qed.

Lemma robustness_of_negative_gate_time_witness :
  Forall2 at_least_reference robustness_table
    (estimateRobustness (with_gate_time (-10) garnet))
  /\ exists gaussian_est drag_est grape_est,
       estimateRobustness (with_gate_time (-10) garnet)
       = [gaussian_est; drag_est; grape_est]
       /\ 1 < detuning_min_fidelity drag_est
       /\ 1 < amplitude_min_fidelity drag_est.
Proof.
  destruct (robustness_of_negative_gate_time (with_gate_time (-10) garnet))
    as [A B]; [reflexivity |].
  split; [exact A | apply B; discriminate].
Defined.

End RobustnessProperties.

(* ------------------------------------------------------------------ *)
(** ** Further properties of the tool layer and the worker             *)
(* ------------------------------------------------------------------ *)

Section ToolProperties.
Import Js Spec Calls.
Import Physics.

(** The [compute_error_budget] tool refuses nothing it should
    compute: whenever T2 <= 2*T1, the anharmonicity is not positive
    (zero passes) and the three times are positive, the reply is the
    formatted budget of [computeErrorBudget] and the state is
    unchanged. *)
Theorem tool_computes_on_valid_input
    (now : string) (p : HardwareParams) (state : Index.AgentState) :
  passes_validation p ->
  Index.executeTool now "compute_error_budget" (args_of p) state
  = (formatErrorBudget (computeErrorBudget p), state).
Proof.
  intros (H2 & Ha & Hg & H1 & H2').
  rewrite executeTool_compute_error_budget, params_of_args_of.
  assert (E1 : gtb (t2_us p) (2 * t1_us p) = false)
    by (apply ltb_false_iff; lra).
  assert (E2 : gtb (alpha_mhz p) 0 = false) by (apply ltb_false_iff; lra).
  assert (E3 : leb (gate_time_ns p) 0 = false) by (apply leb_false_iff; lra).
  assert (E4 : leb (t1_us p) 0 = false) by (apply leb_false_iff; lra).
  assert (E5 : leb (t2_us p) 0 = false) by (apply leb_false_iff; lra).
  rewrite E1, E2, E3, E4, E5. reflexivity.
Qed.

Lemma tool_computes_on_valid_input_witness :
  Index.executeTool "" "compute_error_budget" (args_of garnet) empty_state
  = (formatErrorBudget (computeErrorBudget garnet), empty_state).
Proof.
  apply (tool_computes_on_valid_input "" garnet empty_state).
  repeat split; discriminate.
Defined.

(** No tool but [save_config] changes the agent state. *)
Theorem only_save_config_changes_state
    (now toolName : string) (args : Index.ToolArgs) (state : Index.AgentState) :
  toolName <> "save_config"%string ->
  snd (Index.executeTool now toolName args state) = state.
Proof.
  intro Hne. unfold Index.executeTool.
  destruct (String.eqb toolName "compute_error_budget").
  { destruct (gtb _ _); [reflexivity |].
    destruct (gtb _ _); [reflexivity |].
    destruct (_ || _); reflexivity. }
  destruct (String.eqb toolName "estimate_robustness"); [reflexivity |].
  destruct (String.eqb toolName "save_config") eqn:E.
  { apply String.eqb_eq in E. contradiction. }
  destruct (String.eqb toolName "list_configs"); [| reflexivity].
  destruct (Index.configs state); reflexivity.
Qed.

Lemma only_save_config_changes_state_witness :
  snd (Index.executeTool "" "list_configs" (args_of garnet) empty_state)
  = empty_state.
Proof.
  apply (only_save_config_changes_state "" "list_configs").
  intro H. discriminate H.
Defined.

Lemma save_appends (call : string * Index.ToolArgs) (state : Index.AgentState) :
  Index.configs (save call state)
  = Index.configs state ++ [config_of_args (fst call) (snd call)]
  /\ Index.messages (save call state) = Index.messages state.
Proof. split; reflexivity. Qed.

(** A run of [save_config] calls appends one configuration per call,
    in call order, after those already stored; nothing is validated,
    replaced or merged (a repeated name is stored again), and the chat
    history is untouched. *)
Theorem save_all_appends_in_order
    (calls : list (string * Index.ToolArgs)) (state : Index.AgentState) :
  Index.configs (save_all calls state)
  = Index.configs state
    ++ map (fun call => config_of_args (fst call) (snd call)) calls
  /\ Index.messages (save_all calls state) = Index.messages state.
Proof.
  revert state. induction calls as [| call calls IH]; intro state.
  - simpl. rewrite app_nil_r. split; reflexivity.
  - change (save_all (call :: calls) state)
      with (save_all calls (save call state)).
    destruct (IH (save call state)) as [C M].
    destruct (save_appends call state) as [C1 M1].
    rewrite C, M, C1, M1, <- app_assoc. split; reflexivity.
Qed.

(** What [list_configs] replies after saves: with nothing stored, the
    fixed hint; after at least one save, the header followed by one
    line per stored configuration, oldest first, the new ones last. *)
Theorem list_after_saves
    (calls : list (string * Index.ToolArgs)) (state : Index.AgentState) :
  (Index.configs state = [] -> list_reply state = no_configs_reply)
  /\ (calls <> [] ->
      list_reply (save_all calls state)
      = listing (Index.configs state
                 ++ map (fun call => config_of_args (fst call) (snd call))
                      calls)).
Proof.
  split.
  - intro E. unfold list_reply, Index.executeTool. simpl. rewrite E.
    reflexivity.
  - intro Hne. destruct (save_all_appends_in_order calls state) as [C _].
    unfold list_reply, Index.executeTool. simpl. rewrite C.
    destruct (Index.configs state ++ _) eqn:E; [| reflexivity].
    apply app_eq_nil in E. destruct E as [_ E].
    destruct calls; [contradiction | discriminate E].
Qed.

Lemma list_after_saves_witness :
  list_reply empty_state = no_configs_reply
  /\ list_reply (save_all [("t0"%string, args_of garnet)] empty_state)
     = listing [config_of_args "t0" (args_of garnet)].
Proof.
  destruct (list_after_saves [("t0"%string, args_of garnet)] empty_state)
    as [A B].
  split; [apply A; reflexivity | apply B; discriminate].
Defined.

(** The tools offered to the model in [TOOL_DESCRIPTIONS] are exactly
    the ones [executeTool] handles: a name gets the unknown-tool reply
    if and only if it is not offered. *)
Theorem offered_tools_are_the_handled_ones
    (now toolName : string) (args : Index.ToolArgs) (state : Index.AgentState) :
  In toolName offered_tools
  <-> fst (Index.executeTool now toolName args state) <> unknown_tool toolName.
Proof.
  unfold offered_tools. cbn [map Prompt.TOOL_DESCRIPTIONS snd Prompt.name In].
  split.
  - intros [E | [E | [E | [E | []]]]]; subst toolName.
    + rewrite executeTool_compute_error_budget. cbn [fst].
      destruct (gtb _ _); [discriminate |].
      destruct (gtb _ _); [discriminate |].
      destruct (_ || _); discriminate.
    + discriminate.
    + discriminate.
    + unfold Index.executeTool. simpl.
      destruct (Index.configs state); discriminate.
  - intro H. unfold Index.executeTool in H.
    destruct (String.eqb toolName "compute_error_budget") eqn:E1;
      [apply String.eqb_eq in E1; left; symmetry; exact E1 |].
    destruct (String.eqb toolName "estimate_robustness") eqn:E2;
      [apply String.eqb_eq in E2; right; left; symmetry; exact E2 |].
    destruct (String.eqb toolName "save_config") eqn:E3;
      [apply String.eqb_eq in E3; right; right; left; symmetry; exact E3 |].
    destruct (String.eqb toolName "list_configs") eqn:E4;
      [apply String.eqb_eq in E4; right; right; right; left;
       symmetry; exact E4 |].
    exfalso. apply H. reflexivity.
Qed.

Lemma offered_tools_are_the_handled_ones_witness :
  fst (Index.executeTool "" "list_configs" (args_of garnet) empty_state)
  <> unknown_tool "list_configs".
Proof.
  apply (offered_tools_are_the_handled_ones "" "list_configs").
  simpl. tauto.
Defined.

(** The [estimate_robustness] tool reads the gate time only: the
    anharmonicity, T1, T2, the name and the agent state have no effect
    on its reply. *)
Theorem robustness_reply_reads_gate_time_only
    (args args' : Index.ToolArgs) (state state' : Index.AgentState) :
  Index.args_gate_time_ns args' = Index.args_gate_time_ns args ->
  robustness_reply args' state' = robustness_reply args state.
Proof.
  intro E. unfold robustness_reply, Index.executeTool. simpl.
  unfold estimateRobustness. simpl. rewrite E. reflexivity.
Qed.

Lemma robustness_reply_reads_gate_time_only_witness :
  robustness_reply (args_of (with_alpha 300 (with_t2 1 garnet))) empty_state
  = robustness_reply (args_of garnet) empty_state.
Proof.
  apply (robustness_reply_reads_gate_time_only
           (args_of garnet) (args_of (with_alpha 300 (with_t2 1 garnet)))).
  reflexivity.
Defined.

(** How the worker routes.  A POST to /api/error-budget is answered
    by the worker itself, whatever the agent router would do, and never
    with 404; every other request, a GET of the endpoint included, gets
    the router's response, or 404 Not found if the router declines. *)
Theorem fetch_routing
    (route route' : Index.Request -> option Index.Response)
    (request : Index.Request) :
  (is_api_call request = true ->
   Index.fetch route request = Index.fetch route' request
   /\ Index.status (Index.fetch route request) <> 404%nat)
  /\ (is_api_call request = false ->
      Index.fetch route request
      = match route request with
        | Some agentResponse => agentResponse
        | None => not_found
        end).
Proof.
  unfold Index.fetch. fold (is_api_call request).
  split; intro E; rewrite E.
  - destruct (Index.body request); split;
      try reflexivity; cbn [Index.status]; discriminate.
  - reflexivity.
Qed.

Lemma fetch_routing_witness :
  Index.fetch (fun _ => Some not_found) (api_request garnet)
  = Index.fetch (fun _ => None) (api_request garnet)
  /\ Index.fetch (fun _ => None)
       {| Index.pathname := "/api/error-budget"; Index.method := "GET";
          Index.body := Index.BodyParams garnet |}
     = not_found.
Proof.
  split.
  - apply (fetch_routing (fun _ => Some not_found) (fun _ => None)
             (api_request garnet)).
    reflexivity.
  - apply (fetch_routing (fun _ => None) (fun _ => None)
             {| Index.pathname := "/api/error-budget"; Index.method := "GET";
                Index.body := Index.BodyParams garnet |}).
    reflexivity.
Defined.

End ToolProperties.
